(** * A shallow embedding of the blog's two code units

    - [TypographyConfig]: [src/utils/typography.js], the module that installs
      the link-colour overrides on the Twin Peaks theme, builds the
      [Typography] instance and injects its styles outside production;
    - [render]: the post template ([BlogPostTemplate.render]), a function
      from the props handed over by the site generator to a React element
      tree.

    Third-party code (the [Typography] class, the theme object, the
    [rhythm] helper) is taken as a parameter of the sections below. *)

From Stdlib Require Import String List Bool ZArith QArith Lia.
Import ListNotations.
Local Open Scope string_scope.
Local Set Warnings "-register-all".

(** ** JavaScript values *)

(** The object literals the two modules build: strings, the number [0] of
    [padding: 0], and nested objects whose keys keep their insertion
    order. *)
Inductive JsVal : Type :=
| JStr (s : string)
| JNum (n : Z)
| JObj (fields : list (string * JsVal)).

(** Property lookup, [o[k]]; [None] is JavaScript's [undefined]. *)
Fixpoint lookup {A : Type} (k : string) (o : list (string * A)) : option A :=
  match o with
  | [] => None
  | (k', v) :: rest => if String.eqb k k' then Some v else lookup k rest
  end.

Definition member (k : string) (v : JsVal) : option JsVal :=
  match v with
  | JObj fields => lookup k fields
  | _ => None
  end.

(** [a !== b] for a possibly undefined left operand and a string literal on
    the right: an undefined value is never strictly equal to a string. *)
Definition strict_neq (a : option string) (b : string) : bool :=
  match a with
  | Some s => negb (String.eqb s b)
  | None => true
  end.

(** The string a template literal substitutes for [${x}]. *)
Definition interpolate (x : option string) : string :=
  match x with
  | Some s => s
  | None => "undefined"
  end.

(** ** Exceptions *)

Inductive Error : Type :=
| TypeError (msg : string).

Inductive Result (A : Type) : Type :=
| Ok (a : A)
| Throw (e : Error).

Arguments Ok {A} a.
Arguments Throw {A} e.

Definition bind {A B : Type} (m : Result A) (k : A -> Result B) : Result B :=
  match m with
  | Ok a => k a
  | Throw e => Throw e
  end.

Notation "x <- m ;; k" := (bind m (fun x => k))
  (at level 61, m at next level, right associativity).

(** Reading a property of a reference that may be [null]: JavaScript throws
    a [TypeError] on [null.p]. *)
Definition deref {A : Type} (name : string) (ref : option A) : Result A :=
  match ref with
  | Some a => Ok a
  | None => Throw (TypeError ("Cannot read properties of null: " ++ name))
  end.

(** ** src/utils/typography.js *)

Module TypographyConfig.

(** A style sheet as the theme hooks return it: selector, then the
    declarations of its block. *)
Definition Styles : Type := list (string * list (string * string)).

(** The vertical-rhythm object the library passes as first argument of
    [overrideThemeStyles]; the hook destructures its [rhythm]. *)
Record VerticalRhythm : Type := { rhythm : Q -> string }.

(** The arrow function assigned to [twinPeaksTheme.overrideThemeStyles]. *)
Definition overrideThemeStyles {Options : Type}
    (vr : VerticalRhythm) (options : Options) : Styles :=
  let rhythm := rhythm vr in
  [ ("a",       [ ("color", "#3889f7"); ("backgroundImage", "none") ]);
    ("a:hover", [ ("color", "#e13532"); ("textDecoration", "underline") ]) ].

Section Load.
(** What the two imported packages provide. *)
Variable Options : Type.
Variable BaseTheme : Type.
Variable Typography : Type.

(** The theme object: the fields the package ships plus the hook this
    module assigns. *)
Record Theme : Type := {
  base : BaseTheme;
  themeOverride : option (VerticalRhythm -> Options -> Styles)
}.

(** [new Typography(theme)]. *)
Variable newTypography : Theme -> Typography.

(** [process.env]. *)
Record Env : Type := { NODE_ENV : option string }.

(** What loading the module can change: the imported theme object and
    the instances whose [injectStyles()] has been called. *)
Record World : Type := {
  twinPeaksTheme : Theme;
  injected : list Typography
}.

Definition State (A : Type) : Type := World -> A * World.

Definition ret {A : Type} (a : A) : State A := fun w => (a, w).

Definition seq {A B : Type} (m : State A) (k : A -> State B) : State B :=
  fun w => let (a, w') := m w in k a w'.

Definition setOverrideThemeStyles
    (f : VerticalRhythm -> Options -> Styles) : State unit :=
  fun w =>
    (tt, {| twinPeaksTheme := {| base := base (twinPeaksTheme w);
                                 themeOverride := Some f |};
            injected := injected w |}).

Definition readTheme : State Theme := fun w => (twinPeaksTheme w, w).

Definition injectStyles (t : Typography) : State unit :=
  fun w =>
    (tt, {| twinPeaksTheme := twinPeaksTheme w;
            injected := injected w ++ [t] |}).

(** The module body, top to bottom; its value is the default export. *)
Definition load (env : Env) : State Typography :=
  seq (setOverrideThemeStyles overrideThemeStyles) (fun _ =>
  seq readTheme (fun theme =>
  let typography := newTypography theme in
  seq (if strict_neq (NODE_ENV env) "production"
       then injectStyles typography
       else ret tt) (fun _ =>
  ret typography))).

End Load.

Arguments base {Options BaseTheme}.
Arguments themeOverride {Options BaseTheme}.
Arguments twinPeaksTheme {Options BaseTheme Typography}.
Arguments injected {Options BaseTheme Typography}.
Arguments load {Options BaseTheme Typography}.

End TypographyConfig.

(** ** The post template *)

(** *** Props *)

Module Post.
Record Frontmatter : Type := { title : string; date : string }.
Record t : Type := { id : string; html : string; frontmatter : Frontmatter }.
End Post.

Module Sibling.
Record Fields : Type := { slug : string }.
Record Frontmatter : Type := { title : string }.
Record t : Type := { fields : Fields; frontmatter : Frontmatter }.
End Sibling.

Module Site.
Record Metadata : Type := { title : string; author : string }.
Record t : Type := { siteMetadata : Metadata }.
End Site.

(** The props as the site generator fills them: [data] and [pathContext]
    are there, a post has its frontmatter and a sibling its [fields] and
    [frontmatter].  Of the result of [pageQuery], [markdownRemark] is [null]
    when no node has the slug, and [site] may be missing. *)
Record Data : Type := {
  site : option Site.t;
  markdownRemark : option Post.t
}.

Record PathContext : Type := {
  previous : option Sibling.t;
  next : option Sibling.t
}.

Record Props : Type := {
  data : Data;
  pathContext : PathContext
}.

(** *** React elements *)

Inductive Component : Type := Helmet | Link | DiscussionEmbed.

Inductive ElemType : Type :=
| Host (tag : string)
| Comp (c : Component).

(** An element carries the props written in the JSX (the defaults a
    component declares are added by React, not by the template).  [Null] is
    the child a falsy [x && <jsx/>] leaves in the children; React renders
    nothing for it. *)
Inductive Element : Type :=
| Null
| Text (s : string)
| Elem (type : ElemType) (props : list (string * JsVal)) (children : list Element).

Section Template.

(** [rhythm], imported from the typography module. *)
Variable rhythm : Q -> string.

(** [get(this.props, 'data.site.siteMetadata.title')]: [undefined] when the
    path stops early. *)
Definition siteTitleOf (props : Props) : option string :=
  match site (data props) with
  | Some s => Some (Site.title (Site.siteMetadata s))
  | None => None
  end.

(** [{sibling && (<li><Link to=... rel=...>...</Link></li>)}]: the right
    operand is evaluated only when the left one is truthy. *)
Definition guarded (sibling : option Sibling.t) (item : Result Element)
    : Result Element :=
  match sibling with
  | Some _ => item
  | None => Ok Null
  end.

Definition previousItem (previous : option Sibling.t) : Result Element :=
  p <- deref "fields" previous ;;
  Ok (Elem (Host "li") []
        [ Elem (Comp Link)
            [ ("to", JStr (Sibling.slug (Sibling.fields p)));
              ("rel", JStr "prev") ]
            [ Text "← "; Text (Sibling.title (Sibling.frontmatter p)) ] ]).

Definition nextItem (next : option Sibling.t) : Result Element :=
  n <- deref "fields" next ;;
  Ok (Elem (Host "li") []
        [ Elem (Comp Link)
            [ ("to", JStr (Sibling.slug (Sibling.fields n)));
              ("rel", JStr "next") ]
            [ Text (Sibling.title (Sibling.frontmatter n)); Text " →" ] ]).

(** [BlogPostTemplate.prototype.render]. *)
Definition render (props : Props) : Result Element :=
  let post := markdownRemark (data props) in
  let siteTitle := siteTitleOf props in
  let previous := previous (pathContext props) in
  let next := next (pathContext props) in
  let disqusShortname := "dude-wait4-io" in
  post <- deref "id" post ;;
  let disqusConfig :=
    JObj [ ("identifier", JStr (Post.id post));
           ("title", JStr (Post.title (Post.frontmatter post))) ] in
  prevLi <- guarded previous (previousItem previous) ;;
  nextLi <- guarded next (nextItem next) ;;
  Ok (Elem (Host "div") []
    [ Elem (Comp Helmet)
        [ ("title", JStr (Post.title (Post.frontmatter post) ++ " | "
                          ++ interpolate siteTitle)) ] [];
      Elem (Host "h2") [] [ Text (Post.title (Post.frontmatter post)) ];
      Elem (Host "p")
        [ ("style", JObj [ ("marginTop", JStr (rhythm (-1 # 2)));
                           ("marginBottom", JStr (rhythm 1)) ]) ]
        [ Text (Post.date (Post.frontmatter post)) ];
      Elem (Host "hr")
        [ ("style", JObj [ ("borderBottom", JStr "0.5px #666") ]) ] [];
      Elem (Host "div")
        [ ("dangerouslySetInnerHTML", JObj [ ("__html", JStr (Post.html post)) ]) ]
        [];
      Elem (Host "hr")
        [ ("style", JObj [ ("marginBottom", JStr (rhythm 1)) ]) ] [];
      Elem (Host "ul")
        [ ("style", JObj [ ("display", JStr "flex");
                           ("flexWrap", JStr "wrap");
                           ("justifyContent", JStr "space-between");
                           ("listStyle", JStr "none");
                           ("padding", JNum 0) ]) ]
        [ prevLi; nextLi ];
      Elem (Comp DiscussionEmbed)
        [ ("shortname", JStr disqusShortname); ("config", disqusConfig) ]
        [] ]).

End Template.

(** *** Reading an element tree *)

Definition propsOf (e : Element) : list (string * JsVal) :=
  match e with
  | Elem _ ps _ => ps
  | _ => []
  end.

Definition childrenOf (e : Element) : list Element :=
  match e with
  | Elem _ _ cs => cs
  | _ => []
  end.

Definition prop (k : string) (e : Element) : option JsVal :=
  lookup k (propsOf e).

Definition Component_eqb (a b : Component) : bool :=
  match a, b with
  | Helmet, Helmet | Link, Link | DiscussionEmbed, DiscussionEmbed => true
  | _, _ => false
  end.

Definition isComp (c : Component) (e : Element) : bool :=
  match e with
  | Elem (Comp c') _ _ => Component_eqb c c'
  | _ => false
  end.

Definition isHost (tag : string) (e : Element) : bool :=
  match e with
  | Elem (Host tag') _ _ => String.eqb tag tag'
  | _ => false
  end.

Definition hasProp (k : string) (e : Element) : bool :=
  match prop k e with
  | Some _ => true
  | None => false
  end.

(** The element and everything below it, in document order. *)
Fixpoint descendants (e : Element) : list Element :=
  e :: match e with
       | Elem _ _ cs => flat_map descendants cs
       | _ => []
       end.

Definition elementsOf (c : Component) (tree : Element) : list Element :=
  filter (isComp c) (descendants tree).

(** The [Link]s of a tree whose [rel] is [r]. *)
Definition linksWithRel (r : string) (tree : Element) : list Element :=
  filter (fun e => match prop "rel" e with
                   | Some (JStr r') => String.eqb r r'
                   | _ => false
                   end)
         (elementsOf Link tree).

(** The children of the navigation list: the slot of the previous post, then
    the slot of the next one. *)
Definition navSlots (tree : Element) : list Element :=
  flat_map childrenOf (filter (isHost "ul") (descendants tree)).

(** The markup handed to the elements that set [dangerouslySetInnerHTML]. *)
Definition injectedHtml (tree : Element) : list (option JsVal) :=
  map (fun e => match prop "dangerouslySetInnerHTML" e with
                | Some o => member "__html" o
                | None => None
                end)
      (filter (hasProp "dangerouslySetInnerHTML") (descendants tree)).

(** Two props that agree on everything but [site.siteMetadata.author]. *)
Definition sameSiteButAuthor (a b : option Site.t) : Prop :=
  match a, b with
  | Some x, Some y =>
      Site.title (Site.siteMetadata x) = Site.title (Site.siteMetadata y)
  | None, None => True
  | _, _ => False
  end.

Definition differOnlyInAuthor (a b : Props) : Prop :=
  sameSiteButAuthor (site (data a)) (site (data b))
  /\ markdownRemark (data a) = markdownRemark (data b)
  /\ pathContext a = pathContext b.

(** *** Sample inputs *)

Definition remRhythm (q : Q) : string :=
  if Qle_bool 0 q then "1.75rem" else "-0.875rem".

Definition helloPost : Post.t :=
  {| Post.id := "post-2";
     Post.html := "<p>Hello <em>world</em> &amp; all</p>";
     Post.frontmatter := {| Post.title := "Hello"; Post.date := "May 25, 2018" |} |}.

Definition olderPost : Sibling.t :=
  {| Sibling.fields := {| Sibling.slug := "/older/" |};
     Sibling.frontmatter := {| Sibling.title := "Older" |} |}.

Definition newerPost : Sibling.t :=
  {| Sibling.fields := {| Sibling.slug := "/newer/" |};
     Sibling.frontmatter := {| Sibling.title := "Newer" |} |}.

Definition blogSite (author : string) : Site.t :=
  {| Site.siteMetadata := {| Site.title := "Blog"; Site.author := author |} |}.

Definition shortPost : Post.t :=
  {| Post.id := "post-7";
     Post.html := "";
     Post.frontmatter := {| Post.title := "Other"; Post.date := "" |} |}.

(** A query result without [site], on the last page of the sequence. *)
Definition lastPageProps : Props :=
  {| data := {| site := None; markdownRemark := Some shortPost |};
     pathContext := {| previous := Some newerPost; next := None |} |}.

Definition propsWith (author : string) (previous next : option Sibling.t) : Props :=
  {| data := {| site := Some (blogSite author); markdownRemark := Some helloPost |};
     pathContext := {| previous := previous; next := next |} |}.

(** A second spacing scale: it agrees with [remRhythm] at [-0.5] and at [1],
    the two places the template asks for, and differs at [2]. *)
Definition altRhythm (q : Q) : string :=
  if Qeq_bool q 2 then "3.5rem" else remRhythm q.


(** *** Proof steps shared by the template's theorems *)

(** Takes the props apart and runs [render] on each shape of the page
    context. *)
Ltac open_props props :=
  destruct props as [[st mr] [pv nx]]; simpl in *; subst.

Ltac run_render :=
  unfold render; simpl;
  repeat match goal with
         | |- context [guarded ?s _] => destruct s; simpl
         end.

(** * Properties *)

(** ** Helpers *)

Lemma strict_neq_spec (a : option string) (b : string) :
  strict_neq a b = true <-> a <> Some b.
Proof.
  destruct a as [s|]; simpl.
  - rewrite negb_true_iff.
    destruct (String.eqb_spec s b) as [->|Hne]; split; congruence.
  - split; [discriminate | reflexivity].
Qed.

Lemma app_one_neq {A : Type} (l : list A) (x : A) : (l ++ [x])%list <> l.
Proof.
  intros H. apply (f_equal (@length A)) in H.
  rewrite length_app in H. simpl in H. lia.
Qed.

(** A [null] sibling cannot be read; only the [&&] in front of the list item
    keeps [render] from throwing. *)
Lemma previousItem_null_throws :
  exists e, previousItem None = Throw e.
Proof. eexists. reflexivity. Qed.

Lemma nextItem_null_throws :
  exists e, nextItem None = Throw e.
Proof. eexists. reflexivity. Qed.

Lemma guarded_previous_ok (s : option Sibling.t) :
  exists item, guarded s (previousItem s) = Ok item.
Proof. destruct s; eexists; reflexivity. Qed.

Lemma guarded_next_ok (s : option Sibling.t) :
  exists item, guarded s (nextItem s) = Ok item.
Proof. destruct s; eexists; reflexivity. Qed.

Lemma siteTitleOf_author (a b : Props) :
  sameSiteButAuthor (site (data a)) (site (data b)) ->
  siteTitleOf a = siteTitleOf b.
Proof.
  unfold siteTitleOf, sameSiteButAuthor.
  destruct (site (data a)), (site (data b)); intros H;
    try contradiction; congruence.
Qed.

(** ** The typography module *)

(** C6. The hook the module installs on the theme returns, whatever
    vertical-rhythm object and options it is called with, exactly two rules:
    ['a'] with colour [#3889f7] and no background image, then ['a:hover']
    with colour [#e13532] and underlined text. *)
Theorem override_is_two_link_rules :
  forall (Options BaseTheme Typography : Type)
         (newTypography : TypographyConfig.Theme Options BaseTheme -> Typography)
         (env : TypographyConfig.Env)
         (w : TypographyConfig.World Options BaseTheme Typography),
  exists hook,
    TypographyConfig.themeOverride
      (TypographyConfig.twinPeaksTheme (snd (TypographyConfig.load newTypography env w)))
    = Some hook
    /\ forall vr options,
         hook vr options =
           [ ("a",       [ ("color", "#3889f7"); ("backgroundImage", "none") ]);
             ("a:hover", [ ("color", "#e13532"); ("textDecoration", "underline") ]) ]
         /\ length (hook vr options) = 2%nat.
Proof.
  intros. exists TypographyConfig.overrideThemeStyles. split.
  - unfold TypographyConfig.load, TypographyConfig.seq. simpl.
    destruct (strict_neq (TypographyConfig.NODE_ENV env) "production"); reflexivity.
  - intros vr options. split; reflexivity.
Qed.

(** C7. Loading the module calls [injectStyles()] on the new instance, once,
    if and only if [NODE_ENV] is not ['production']; under ['production'] the
    injected styles are left as they were. *)
Theorem styles_injected_iff_not_production :
  forall (Options BaseTheme Typography : Type)
         (newTypography : TypographyConfig.Theme Options BaseTheme -> Typography)
         (env : TypographyConfig.Env)
         (w : TypographyConfig.World Options BaseTheme Typography),
    let typography := fst (TypographyConfig.load newTypography env w) in
    let w' := snd (TypographyConfig.load newTypography env w) in
    (TypographyConfig.injected w' = (TypographyConfig.injected w ++ [typography])%list
       <-> TypographyConfig.NODE_ENV env <> Some "production")
    /\ (TypographyConfig.injected w' = TypographyConfig.injected w
       <-> TypographyConfig.NODE_ENV env = Some "production").
Proof.
  intros Options BaseTheme Typography newTypography env w.
  unfold TypographyConfig.load, TypographyConfig.seq. simpl.
  case_eq (strict_neq (TypographyConfig.NODE_ENV env) "production"); intros Henv; simpl.
  - apply strict_neq_spec in Henv. split; split; intros H.
    + exact Henv.
    + reflexivity.
    + exfalso. exact (app_one_neq _ _ H).
    + contradiction.
  - assert (Hprod : TypographyConfig.NODE_ENV env = Some "production").
    { destruct (TypographyConfig.NODE_ENV env) as [s|]; simpl in Henv;
        [ | discriminate ].
      apply negb_false_iff, String.eqb_eq in Henv. now subst. }
    split; split; intros H.
    + exfalso. symmetry in H. exact (app_one_neq _ _ H).
    + contradiction.
    + exact Hprod.
    + reflexivity.
Qed.

(** ** The post template *)

(** C1. With both siblings in the page context the output holds both links
    and no other: first the one to [previous.fields.slug], labelled with
    [previous.frontmatter.title] behind its arrow, then the one to
    [next.fields.slug], labelled with [next.frontmatter.title] before its
    arrow. *)
Theorem both_siblings_both_links :
  forall (rhythm : Q -> string) (props : Props) (post : Post.t) (p n : Sibling.t),
    markdownRemark (data props) = Some post ->
    previous (pathContext props) = Some p ->
    next (pathContext props) = Some n ->
    exists tree,
      render rhythm props = Ok tree
      /\ elementsOf Link tree =
           [ Elem (Comp Link)
               [ ("to", JStr (Sibling.slug (Sibling.fields p))); ("rel", JStr "prev") ]
               [ Text "← "; Text (Sibling.title (Sibling.frontmatter p)) ];
             Elem (Comp Link)
               [ ("to", JStr (Sibling.slug (Sibling.fields n))); ("rel", JStr "next") ]
               [ Text (Sibling.title (Sibling.frontmatter n)); Text " →" ] ].
Proof.
  intros rhythm props post p n Hpost Hprev Hnext.
  open_props props. eexists. split; reflexivity.
Qed.

Lemma both_siblings_both_links_witness :
  exists tree,
    render remRhythm (propsWith "norus" (Some olderPost) (Some newerPost)) = Ok tree
    /\ elementsOf Link tree =
         [ Elem (Comp Link) [ ("to", JStr "/older/"); ("rel", JStr "prev") ]
             [ Text "← "; Text "Older" ];
           Elem (Comp Link) [ ("to", JStr "/newer/"); ("rel", JStr "next") ]
             [ Text "Newer"; Text " →" ] ].
Proof.
  exact (both_siblings_both_links remRhythm
           (propsWith "norus" (Some olderPost) (Some newerPost))
           helloPost olderPost newerPost eq_refl eq_refl eq_refl).
Defined.

(** C2. A sibling missing from the page context raises no error: [render]
    returns a tree in which the sibling's slot of the navigation list is
    empty and no link with its [rel] occurs anywhere. *)
Theorem missing_sibling_link_omitted :
  forall (rhythm : Q -> string) (props : Props) (post : Post.t),
    markdownRemark (data props) = Some post ->
    exists tree,
      render rhythm props = Ok tree
      /\ (previous (pathContext props) = None ->
            linksWithRel "prev" tree = []
            /\ nth_error (navSlots tree) 0 = Some Null)
      /\ (next (pathContext props) = None ->
            linksWithRel "next" tree = []
            /\ nth_error (navSlots tree) 1 = Some Null).
Proof.
  intros rhythm props post Hpost. open_props props.
  destruct pv as [p|], nx as [n|]; eexists;
    (split; [ reflexivity | split; intros H; try discriminate H; split; reflexivity ]).
Qed.

Lemma missing_sibling_link_omitted_witness :
  exists tree,
    render remRhythm (propsWith "norus" None (Some newerPost)) = Ok tree
    /\ linksWithRel "prev" tree = []
    /\ nth_error (navSlots tree) 0 = Some Null
    /\ length (linksWithRel "next" tree) = 1%nat.
Proof.
  destruct (missing_sibling_link_omitted remRhythm
              (propsWith "norus" None (Some newerPost)) helloPost eq_refl)
    as [tree [Hrender [Hprev _]]].
  exists tree. destruct (Hprev eq_refl) as [Hlinks Hslot].
  repeat split; try assumption.
  simpl in Hrender. inversion Hrender. reflexivity.
Defined.

(** C3. The title handed to the page head is the post's title, then [" | "],
    then the site's title. *)
Theorem head_title_is_post_then_site :
  forall (rhythm : Q -> string) (props : Props) (post : Post.t) (meta : Site.Metadata),
    markdownRemark (data props) = Some post ->
    site (data props) = Some {| Site.siteMetadata := meta |} ->
    exists tree,
      render rhythm props = Ok tree
      /\ map (prop "title") (elementsOf Helmet tree) =
           [ Some (JStr (Post.title (Post.frontmatter post) ++ " | " ++ Site.title meta)) ].
Proof.
  intros rhythm props post meta Hpost Hsite. open_props props.
  run_render; eexists; split; reflexivity.
Qed.

Lemma head_title_is_post_then_site_witness :
  exists tree,
    render remRhythm (propsWith "norus" None None) = Ok tree
    /\ map (prop "title") (elementsOf Helmet tree) = [ Some (JStr "Hello | Blog") ].
Proof.
  exact (head_title_is_post_then_site remRhythm (propsWith "norus" None None)
           helloPost {| Site.title := "Blog"; Site.author := "norus" |}
           eq_refl eq_refl).
Defined.

(** C4. The body is the one place where markup is injected, and what is
    injected there is [post.html] itself, character for character. *)
Theorem body_is_post_html :
  forall (rhythm : Q -> string) (props : Props) (post : Post.t),
    markdownRemark (data props) = Some post ->
    exists tree,
      render rhythm props = Ok tree
      /\ injectedHtml tree = [ Some (JStr (Post.html post)) ]
      /\ nth_error (childrenOf tree) 4 =
           Some (Elem (Host "div")
                   [ ("dangerouslySetInnerHTML", JObj [ ("__html", JStr (Post.html post)) ]) ]
                   []).
Proof.
  intros rhythm props post Hpost. open_props props.
  run_render; eexists; repeat split; reflexivity.
Qed.

Lemma body_is_post_html_witness :
  exists tree,
    render remRhythm (propsWith "norus" (Some olderPost) None) = Ok tree
    /\ injectedHtml tree = [ Some (JStr "<p>Hello <em>world</em> &amp; all</p>") ]
    /\ nth_error (childrenOf tree) 4 =
         Some (Elem (Host "div")
                 [ ("dangerouslySetInnerHTML",
                    JObj [ ("__html", JStr "<p>Hello <em>world</em> &amp; all</p>") ]) ]
                 []).
Proof.
  exact (body_is_post_html remRhythm (propsWith "norus" (Some olderPost) None)
           helloPost eq_refl).
Defined.

(** C5. The output has one comment-widget embed; it carries a [shortname]
    and a [config] whose [identifier] is [post.id] and whose [title] is
    [post.frontmatter.title]. *)
Theorem embed_is_configured_by_post :
  forall (rhythm : Q -> string) (props : Props) (post : Post.t),
    markdownRemark (data props) = Some post ->
    exists tree embed shortname config,
      render rhythm props = Ok tree
      /\ elementsOf DiscussionEmbed tree = [ embed ]
      /\ prop "shortname" embed = Some (JStr shortname)
      /\ prop "config" embed = Some config
      /\ config = JObj [ ("identifier", JStr (Post.id post));
                         ("title", JStr (Post.title (Post.frontmatter post))) ]
      /\ member "identifier" config = Some (JStr (Post.id post))
      /\ member "title" config = Some (JStr (Post.title (Post.frontmatter post))).
Proof.
  intros rhythm props post Hpost. open_props props.
  run_render; do 4 eexists; repeat split.
Qed.

Lemma embed_is_configured_by_post_witness :
  exists tree embed shortname config,
    render remRhythm (propsWith "norus" None None) = Ok tree
    /\ elementsOf DiscussionEmbed tree = [ embed ]
    /\ prop "shortname" embed = Some (JStr shortname)
    /\ prop "config" embed = Some config
    /\ config = JObj [ ("identifier", JStr "post-2"); ("title", JStr "Hello") ]
    /\ member "identifier" config = Some (JStr "post-2")
    /\ member "title" config = Some (JStr "Hello").
Proof.
  exact (embed_is_configured_by_post remRhythm (propsWith "norus" None None)
           helloPost eq_refl).
Defined.

(** C8. The children of the rendered fragment are, in this order: the
    page-head title, the heading, the date, a rule, the injected body, a
    rule, the navigation list and the comment-widget embed.  The list holds
    the slot of the previous post, then the slot of the next one: the list
    item with the sibling's link when the sibling is there, nothing
    otherwise; these are all the links of the page. *)
Theorem fragment_regions_in_order :
  forall (rhythm : Q -> string) (props : Props) (post : Post.t),
    markdownRemark (data props) = Some post ->
    exists tree pageTitle dateStyle rule1 rule2 nav navProps embedProps,
      render rhythm props = Ok tree
      /\ tree =
           Elem (Host "div") []
             [ Elem (Comp Helmet) [ ("title", JStr pageTitle) ] [];
               Elem (Host "h2") [] [ Text (Post.title (Post.frontmatter post)) ];
               Elem (Host "p") dateStyle [ Text (Post.date (Post.frontmatter post)) ];
               Elem (Host "hr") rule1 [];
               Elem (Host "div")
                 [ ("dangerouslySetInnerHTML", JObj [ ("__html", JStr (Post.html post)) ]) ]
                 [];
               Elem (Host "hr") rule2 [];
               nav;
               Elem (Comp DiscussionEmbed) embedProps [] ]
      /\ pageTitle =
           Post.title (Post.frontmatter post) ++ " | " ++ interpolate (siteTitleOf props)
      /\ nav =
           Elem (Host "ul") navProps
             [ match previous (pathContext props) with
               | Some p =>
                   Elem (Host "li") []
                     [ Elem (Comp Link)
                         [ ("to", JStr (Sibling.slug (Sibling.fields p)));
                           ("rel", JStr "prev") ]
                         [ Text "← "; Text (Sibling.title (Sibling.frontmatter p)) ] ]
               | None => Null
               end;
               match next (pathContext props) with
               | Some n =>
                   Elem (Host "li") []
                     [ Elem (Comp Link)
                         [ ("to", JStr (Sibling.slug (Sibling.fields n)));
                           ("rel", JStr "next") ]
                         [ Text (Sibling.title (Sibling.frontmatter n)); Text " →" ] ]
               | None => Null
               end ]
      /\ isHost "ul" nav = true
      /\ elementsOf Link nav = elementsOf Link tree.
Proof.
  intros rhythm props post Hpost. open_props props.
  destruct pv as [p|], nx as [n|];
    do 8 eexists; (split; [ reflexivity | ]); repeat split.
Qed.

Lemma fragment_regions_in_order_witness :
  exists tree pageTitle dateStyle rule1 rule2 nav navProps embedProps,
    render remRhythm (propsWith "norus" (Some olderPost) None) = Ok tree
    /\ tree =
         Elem (Host "div") []
           [ Elem (Comp Helmet) [ ("title", JStr pageTitle) ] [];
             Elem (Host "h2") [] [ Text "Hello" ];
             Elem (Host "p") dateStyle [ Text "May 25, 2018" ];
             Elem (Host "hr") rule1 [];
             Elem (Host "div")
               [ ("dangerouslySetInnerHTML",
                  JObj [ ("__html", JStr "<p>Hello <em>world</em> &amp; all</p>") ]) ]
               [];
             Elem (Host "hr") rule2 [];
             nav;
             Elem (Comp DiscussionEmbed) embedProps [] ]
    /\ pageTitle = "Hello | Blog"
    /\ nav =
         Elem (Host "ul") navProps
           [ Elem (Host "li") []
               [ Elem (Comp Link) [ ("to", JStr "/older/"); ("rel", JStr "prev") ]
                   [ Text "← "; Text "Older" ] ];
             Null ]
    /\ isHost "ul" nav = true
    /\ elementsOf Link nav = elementsOf Link tree.
Proof.
  exact (fragment_regions_in_order remRhythm
           (propsWith "norus" (Some olderPost) None) helloPost eq_refl).
Defined.

(** C9. Whatever the props, the embed's [shortname] is ["dude-wait4-io"]:
    any two pages get the same one. *)
Theorem shortname_is_constant :
  forall (rhythm : Q -> string) (props : Props) (post : Post.t),
    markdownRemark (data props) = Some post ->
    exists tree,
      render rhythm props = Ok tree
      /\ map (prop "shortname") (elementsOf DiscussionEmbed tree) =
           [ Some (JStr "dude-wait4-io") ].
Proof.
  intros rhythm props post Hpost. open_props props.
  run_render; eexists; split; reflexivity.
Qed.

Lemma shortname_is_constant_witness :
  (exists tree,
     render remRhythm (propsWith "norus" None None) = Ok tree
     /\ map (prop "shortname") (elementsOf DiscussionEmbed tree) =
          [ Some (JStr "dude-wait4-io") ])
  /\ (exists tree,
        render (fun _ => "0") lastPageProps = Ok tree
        /\ map (prop "shortname") (elementsOf DiscussionEmbed tree) =
             [ Some (JStr "dude-wait4-io") ]).
Proof.
  split.
  - exact (shortname_is_constant remRhythm (propsWith "norus" None None)
             helloPost eq_refl).
  - exact (shortname_is_constant (fun _ => "0") lastPageProps shortPost eq_refl).
Defined.

(** C10. Two props that differ only in the author of the site metadata
    render to the same result. *)
Theorem author_does_not_show :
  forall (rhythm : Q -> string) (a b : Props),
    differOnlyInAuthor a b ->
    render rhythm a = render rhythm b.
Proof.
  intros rhythm a b (Hsite & Hpost & Hctx).
  unfold render.
  rewrite (siteTitleOf_author a b Hsite), Hpost, Hctx.
  reflexivity.
Qed.

Lemma author_does_not_show_witness :
  differOnlyInAuthor (propsWith "norus" (Some olderPost) None)
                     (propsWith "someone else" (Some olderPost) None)
  /\ propsWith "norus" (Some olderPost) None
       <> propsWith "someone else" (Some olderPost) None
  /\ render remRhythm (propsWith "norus" (Some olderPost) None)
       = render remRhythm (propsWith "someone else" (Some olderPost) None).
Proof.
  assert (H : differOnlyInAuthor (propsWith "norus" (Some olderPost) None)
                                 (propsWith "someone else" (Some olderPost) None)).
  { repeat split. }
  split; [ exact H | split ].
  - discriminate.
  - exact (author_does_not_show remRhythm _ _ H).
Defined.

(** * Further properties *)

(** ** Helpers *)

Lemma render_with_post (rhythm : Q -> string) (props : Props) (post : Post.t) :
  markdownRemark (data props) = Some post ->
  exists prevLi nextLi,
    guarded (previous (pathContext props)) (previousItem (previous (pathContext props)))
      = Ok prevLi
    /\ guarded (next (pathContext props)) (nextItem (next (pathContext props)))
      = Ok nextLi
    /\ elementsOf DiscussionEmbed prevLi = []
    /\ elementsOf DiscussionEmbed nextLi = []
    /\ render rhythm props =
         Ok (Elem (Host "div") []
               [ Elem (Comp Helmet)
                   [ ("title", JStr (Post.title (Post.frontmatter post) ++ " | "
                                     ++ interpolate (siteTitleOf props))) ] [];
                 Elem (Host "h2") [] [ Text (Post.title (Post.frontmatter post)) ];
                 Elem (Host "p")
                   [ ("style", JObj [ ("marginTop", JStr (rhythm (-1 # 2)));
                                      ("marginBottom", JStr (rhythm 1)) ]) ]
                   [ Text (Post.date (Post.frontmatter post)) ];
                 Elem (Host "hr")
                   [ ("style", JObj [ ("borderBottom", JStr "0.5px #666") ]) ] [];
                 Elem (Host "div")
                   [ ("dangerouslySetInnerHTML",
                      JObj [ ("__html", JStr (Post.html post)) ]) ] [];
                 Elem (Host "hr")
                   [ ("style", JObj [ ("marginBottom", JStr (rhythm 1)) ]) ] [];
                 Elem (Host "ul")
                   [ ("style", JObj [ ("display", JStr "flex");
                                      ("flexWrap", JStr "wrap");
                                      ("justifyContent", JStr "space-between");
                                      ("listStyle", JStr "none");
                                      ("padding", JNum 0) ]) ]
                   [ prevLi; nextLi ];
                 Elem (Comp DiscussionEmbed)
                   [ ("shortname", JStr "dude-wait4-io");
                     ("config",
                      JObj [ ("identifier", JStr (Post.id post));
                             ("title", JStr (Post.title (Post.frontmatter post))) ]) ]
                   [] ]).
Proof.
  intros Hpost. unfold render. rewrite Hpost.
  destruct (previous (pathContext props)) as [p|],
           (next (pathContext props)) as [n|];
    do 2 eexists; repeat split.
Qed.


(** ** The template on incomplete query results *)



(** X2. When the query result has no [site], the page still renders; the
    head title then ends in the word [undefined], and the page is the one a
    site titled ["undefined"] would get. *)
Theorem missing_site_title_reads_undefined :
  forall (rhythm : Q -> string) (props : Props) (post : Post.t),
    markdownRemark (data props) = Some post ->
    site (data props) = None ->
    exists tree,
      render rhythm props = Ok tree
      /\ map (prop "title") (elementsOf Helmet tree) =
           [ Some (JStr (Post.title (Post.frontmatter post) ++ " | undefined")) ]
      /\ forall author,
           render rhythm
             {| data :=
                  {| site := Some {| Site.siteMetadata :=
                                       {| Site.title := "undefined";
                                          Site.author := author |} |};
                     markdownRemark := Some post |};
                pathContext := pathContext props |}
           = Ok tree.
Proof.
  intros rhythm props post Hpost Hsite. open_props props.
  run_render; eexists; repeat split.
Qed.

Lemma missing_site_title_reads_undefined_witness :
  exists tree,
    render remRhythm lastPageProps = Ok tree
    /\ map (prop "title") (elementsOf Helmet tree) =
         [ Some (JStr "Other | undefined") ]
    /\ forall author,
         render remRhythm
           {| data :=
                {| site := Some {| Site.siteMetadata :=
                                     {| Site.title := "undefined";
                                        Site.author := author |} |};
                   markdownRemark := Some shortPost |};
              pathContext := pathContext lastPageProps |}
         = Ok tree.
Proof.
  exact (missing_site_title_reads_undefined remRhythm lastPageProps shortPost
           eq_refl eq_refl).
Defined.

(** ** The navigation list *)

(** X3. A sibling that is present gets its link whatever the other sibling
    is: the slot of [previous] holds the list item with the link to its slug,
    and so does the slot of [next]. *)
Theorem present_sibling_link_kept :
  forall (rhythm : Q -> string) (props : Props) (post : Post.t),
    markdownRemark (data props) = Some post ->
    exists tree,
      render rhythm props = Ok tree
      /\ (forall p, previous (pathContext props) = Some p ->
            nth_error (navSlots tree) 0 =
              Some (Elem (Host "li") []
                      [ Elem (Comp Link)
                          [ ("to", JStr (Sibling.slug (Sibling.fields p)));
                            ("rel", JStr "prev") ]
                          [ Text "← "; Text (Sibling.title (Sibling.frontmatter p)) ] ])
            /\ map (prop "to") (linksWithRel "prev" tree) =
                 [ Some (JStr (Sibling.slug (Sibling.fields p))) ])
      /\ (forall n, next (pathContext props) = Some n ->
            nth_error (navSlots tree) 1 =
              Some (Elem (Host "li") []
                      [ Elem (Comp Link)
                          [ ("to", JStr (Sibling.slug (Sibling.fields n)));
                            ("rel", JStr "next") ]
                          [ Text (Sibling.title (Sibling.frontmatter n)); Text " →" ] ])
            /\ map (prop "to") (linksWithRel "next" tree) =
                 [ Some (JStr (Sibling.slug (Sibling.fields n))) ]).
Proof.
  intros rhythm props post Hpost. open_props props.
  destruct pv as [p|], nx as [n|]; eexists;
    (split; [ reflexivity | ]);
    split; intros s Hs; inversion Hs; subst; split; reflexivity.
Qed.

Lemma present_sibling_link_kept_witness :
  exists tree,
    render remRhythm (propsWith "norus" (Some olderPost) None) = Ok tree
    /\ map (prop "to") (linksWithRel "prev" tree) = [ Some (JStr "/older/") ]
    /\ linksWithRel "next" tree = [].
Proof.
  destruct (present_sibling_link_kept remRhythm
              (propsWith "norus" (Some olderPost) None) helloPost eq_refl)
    as [tree [Hrender [Hprev _]]].
  exists tree. destruct (Hprev olderPost eq_refl) as [_ Hto].
  repeat split; try assumption.
  simpl in Hrender. inversion Hrender. reflexivity.
Defined.

(** X4. The navigation list always has two slots; the page has one link per
    sibling present, and every link is a [prev] or a [next] link, the [prev]
    one first. *)
Theorem nav_has_two_slots_one_link_per_sibling :
  forall (rhythm : Q -> string) (props : Props) (post : Post.t),
    markdownRemark (data props) = Some post ->
    exists tree,
      render rhythm props = Ok tree
      /\ length (navSlots tree) = 2%nat
      /\ elementsOf Link tree
           = (linksWithRel "prev" tree ++ linksWithRel "next" tree)%list
      /\ length (elementsOf Link tree)
           = ((match previous (pathContext props) with Some _ => 1 | None => 0 end)
              + (match next (pathContext props) with Some _ => 1 | None => 0 end))%nat.
Proof.
  intros rhythm props post Hpost. open_props props.
  run_render; eexists; repeat split.
Qed.

Lemma nav_has_two_slots_one_link_per_sibling_witness :
  exists tree,
    render remRhythm lastPageProps = Ok tree
    /\ length (navSlots tree) = 2%nat
    /\ elementsOf Link tree
         = (linksWithRel "prev" tree ++ linksWithRel "next" tree)%list
    /\ length (elementsOf Link tree) = 1%nat.
Proof.
  exact (nav_has_two_slots_one_link_per_sibling remRhythm lastPageProps
           shortPost eq_refl).
Defined.

(** X5. The page context reaches the navigation list and nothing else: two
    pages over the same query result have the same six children before the
    list, the same embed after it, and lists with the same style. *)
Theorem page_context_touches_only_nav :
  forall (rhythm : Q -> string) (a b : Props) (post : Post.t),
    data a = data b ->
    markdownRemark (data a) = Some post ->
    exists before navA navB after,
      render rhythm a = Ok (Elem (Host "div") [] (before ++ navA :: after))
      /\ render rhythm b = Ok (Elem (Host "div") [] (before ++ navB :: after))
      /\ length before = 6%nat
      /\ length after = 1%nat
      /\ isHost "ul" navA = true
      /\ isHost "ul" navB = true
      /\ propsOf navA = propsOf navB.
Proof.
  intros rhythm a b post Hdata Hpost.
  assert (Hpost' : markdownRemark (data b) = Some post) by congruence.
  assert (Htitle : siteTitleOf b = siteTitleOf a)
    by (unfold siteTitleOf; now rewrite Hdata).
  destruct (render_with_post rhythm a post Hpost)
    as (pa & na & _ & _ & _ & _ & ->).
  destruct (render_with_post rhythm b post Hpost')
    as (pb & nb & _ & _ & _ & _ & ->).
  rewrite Htitle.
  eexists [_; _; _; _; _; _], _, _, [_]. simpl.
  repeat split.
Qed.

Lemma page_context_touches_only_nav_witness :
  exists before navA navB after,
    render remRhythm (propsWith "norus" None None)
      = Ok (Elem (Host "div") [] (before ++ navA :: after))
    /\ render remRhythm (propsWith "norus" (Some olderPost) (Some newerPost))
      = Ok (Elem (Host "div") [] (before ++ navB :: after))
    /\ length before = 6%nat
    /\ length after = 1%nat
    /\ isHost "ul" navA = true
    /\ isHost "ul" navB = true
    /\ propsOf navA = propsOf navB.
Proof.
  exact (page_context_touches_only_nav remRhythm
           (propsWith "norus" None None)
           (propsWith "norus" (Some olderPost) (Some newerPost))
           helloPost eq_refl eq_refl).
Defined.

(** X6. The template asks the spacing scale for [rhythm(-0.5)] and
    [rhythm(1)] only: two scales that agree there give the same page. *)
Theorem render_reads_rhythm_at_two_points :
  forall (r1 r2 : Q -> string) (props : Props),
    r1 (-1 # 2) = r2 (-1 # 2) ->
    r1 1 = r2 1 ->
    render r1 props = render r2 props.
Proof.
  intros r1 r2 props Hhalf Hone.
  unfold render. rewrite Hhalf, Hone. reflexivity.
Qed.

Lemma render_reads_rhythm_at_two_points_witness :
  remRhythm 2 <> altRhythm 2
  /\ render remRhythm (propsWith "norus" (Some olderPost) None)
     = render altRhythm (propsWith "norus" (Some olderPost) None).
Proof.
  split.
  - discriminate.
  - exact (render_reads_rhythm_at_two_points remRhythm altRhythm
             (propsWith "norus" (Some olderPost) None) eq_refl eq_refl).
Defined.



(** ** The typography module *)

(** X8. The exported instance is built after the hook is assigned: its theme
    is the imported one with the shipped fields untouched and the hook set,
    whichever hook was there before and whatever [NODE_ENV] is; the theme
    object is left in that state. *)
Theorem typography_built_from_overridden_theme :
  forall (Options BaseTheme Typography : Type)
         (newTypography : TypographyConfig.Theme Options BaseTheme -> Typography)
         (env : TypographyConfig.Env)
         (w : TypographyConfig.World Options BaseTheme Typography),
    let theme :=
      {| TypographyConfig.base :=
           TypographyConfig.base (TypographyConfig.twinPeaksTheme w);
         TypographyConfig.themeOverride :=
           Some TypographyConfig.overrideThemeStyles |} in
    fst (TypographyConfig.load newTypography env w) = newTypography theme
    /\ TypographyConfig.twinPeaksTheme (snd (TypographyConfig.load newTypography env w))
       = theme.
Proof.
  intros Options BaseTheme Typography newTypography env w theme.
  unfold TypographyConfig.load, TypographyConfig.seq. simpl.
  destruct (strict_neq (TypographyConfig.NODE_ENV env) "production");
    split; reflexivity.
Qed.

(** X9. Running the module body a second time changes nothing but the
    injections: the second instance is built from the same theme as the
    first, the theme object stays as the first run left it, and the styles
    are injected once per run outside production and never under it. *)
Theorem reload_keeps_theme_and_instance :
  forall (Options BaseTheme Typography : Type)
         (newTypography : TypographyConfig.Theme Options BaseTheme -> Typography)
         (env : TypographyConfig.Env)
         (w : TypographyConfig.World Options BaseTheme Typography),
    let first := TypographyConfig.load newTypography env w in
    let second := TypographyConfig.load newTypography env (snd first) in
    fst second = fst first
    /\ TypographyConfig.twinPeaksTheme (snd second)
       = TypographyConfig.twinPeaksTheme (snd first)
    /\ TypographyConfig.injected (snd second)
       = (TypographyConfig.injected w
          ++ (if strict_neq (TypographyConfig.NODE_ENV env) "production"
              then [ fst first; fst first ]
              else []))%list.
Proof.
  intros Options BaseTheme Typography newTypography env w.
  unfold TypographyConfig.load, TypographyConfig.seq. simpl.
  destruct (strict_neq (TypographyConfig.NODE_ENV env) "production"); simpl.
  - repeat split. now rewrite <- app_assoc.
  - repeat split. now rewrite app_nil_r.
Qed.
